(** * A Flask demonstration service: greeting, health check and sample data

    Shallow embedding of [app/app.py] and of the part of Flask's request
    dispatch that the module relies on.

    - The process environment ([os.environ]) is a finite map from variable
      names to strings; together with [app.config] it forms the mutable
      state a view function could touch.
    - A view function runs in a reader/state monad: it may inspect the
      current request (Flask's context-local [request]) and read or write
      the state.  The three views of the module use only [os.environ.get].
    - JSON values keep the shape of the Python literals they are built
      from; an object is the association list of the [dict] literal, in
      source order. *)

From Stdlib Require Import ZArith List.
From stdpp Require Import gmap strings list fin_maps.
Import ListNotations.

Local Open Scope string_scope.
Set Warnings "-register-all".

(** ** JSON values *)

Inductive json : Type :=
  | JNull
  | JBool (b : bool)
  | JNum (n : Z)
  | JStr (s : string)
  | JArr (items : list json)
  | JObj (fields : list (string * json)).

(** [d[k]] on a Python [dict] built from a literal: the last binding of
    a key wins, hence the search from the right. *)
Fixpoint assoc_get (k : string) (fields : list (string * json)) : option json :=
  match fields with
  | [] => None
  | (k', v) :: rest =>
      match assoc_get k rest with
      | Some v' => Some v'
      | None => if String.eqb k k' then Some v else None
      end
  end.

Definition json_get (k : string) (j : json) : option json :=
  match j with
  | JObj fields => assoc_get k fields
  | _ => None
  end.

Definition json_keys (j : json) : list string :=
  match j with
  | JObj fields => map fst fields
  | _ => []
  end.


(** ** Requests, responses and process state *)

Inductive Method : Type := GET | HEAD | OPTIONS | POST | PUT | PATCH | DELETE.

Record Request : Type := mkRequest {
  method : Method;
  path : string;
  query_string : string;
  headers : list (string * string);
  body : string
}.

(** A response as the test client sees it: the status code, the content
    type and, when the body is a JSON document, its value. *)
Record Response : Type := mkResponse {
  status_code : Z;
  mimetype : string;
  payload : option json
}.

Record World : Type := mkWorld {
  environ : gmap string string;
  config : gmap string json
}.

(** ** The monad of view functions *)

Definition View (A : Type) : Type := Request -> World -> A * World.

Definition ret {A : Type} (a : A) : View A := fun _ w => (a, w).

Definition bind {A B : Type} (m : View A) (f : A -> View B) : View B :=
  fun req w => let (a, w') := m req w in f a req w'.

Notation "'let*' x ':=' m 'in' k" := (bind m (fun x => k))
  (at level 10, x name, m at level 100, k at level 200).

(** [os.environ.get(key, default)] *)
Definition environ_get (key dflt : string) : View string :=
  fun _ w => (default dflt (environ w !! key), w).

(** [os.environ[key] = value] and [del os.environ[key]] *)
Definition environ_set (key value : string) (w : World) : World :=
  {| environ := <[key := value]> (environ w); config := config w |}.

Definition environ_unset (key : string) (w : World) : World :=
  {| environ := delete key (environ w); config := config w |}.

(** [app.config[key] = value] *)
Definition config_set (key : string) (value : json) (w : World) : World :=
  {| environ := environ w; config := <[key := value]> (config w) |}.

(** ** Flask glue *)

(** [jsonify(obj)]: a response with status 200 carrying [obj]. *)
Definition jsonify (obj : json) : Response :=
  {| status_code := 200; mimetype := "application/json"; payload := Some obj |}.

(** What a view may return: a response, or a pair of a response and a
    status code. *)
Inductive ViewResult : Type :=
  | RvResponse (r : Response)
  | RvTuple (r : Response) (status : Z).

(** [Flask.make_response] *)
Definition make_response (rv : ViewResult) : Response :=
  match rv with
  | RvResponse r => r
  | RvTuple r status =>
      {| status_code := status; mimetype := mimetype r; payload := payload r |}
  end.

(** ** The views of [app.py] *)

Definition hello : View ViewResult :=
  let* version := environ_get "APP_VERSION" "1.0.0" in
  let* environment := environ_get "ENV" "development" in
  ret (RvResponse (jsonify (JObj [
    ("message", JStr "Hello from CI/CD Pipeline!");
    ("version", JStr version);
    ("environment", JStr environment)
  ]))).

Definition health : View ViewResult :=
  ret (RvTuple (jsonify (JObj [("status", JStr "healthy")])) 200).

Definition get_data : View ViewResult :=
  ret (RvResponse (jsonify (JObj [
    ("data", JArr [JNum 1; JNum 2; JNum 3; JNum 4; JNum 5]);
    ("count", JNum 5)
  ]))).

(** ** Routing *)

Inductive Endpoint : Type := EpHello | EpHealth | EpGetData.

(** The rules registered by the three [@app.route] decorators. *)
Definition url_map : list (string * Endpoint) :=
  [("/", EpHello); ("/health", EpHealth); ("/api/data", EpGetData)].

Definition view_functions (ep : Endpoint) : View ViewResult :=
  match ep with
  | EpHello => hello
  | EpHealth => health
  | EpGetData => get_data
  end.

Fixpoint match_rule (rules : list (string * Endpoint)) (p : string) : option Endpoint :=
  match rules with
  | [] => None
  | (rule, ep) :: rest => if String.eqb rule p then Some ep else match_rule rest p
  end.

Definition not_found : Response :=
  {| status_code := 404; mimetype := "text/html"; payload := None |}.

Definition method_not_allowed : Response :=
  {| status_code := 405; mimetype := "text/html"; payload := None |}.

Definition automatic_options : Response :=
  {| status_code := 200; mimetype := "text/html"; payload := None |}.

Definition strip_body (r : Response) : Response :=
  {| status_code := status_code r; mimetype := mimetype r; payload := None |}.

(** The response of one view to one request. *)
Definition call_view (ep : Endpoint) : View Response :=
  let* rv := view_functions ep in ret (make_response rv).

(** A route declared without [methods=] answers GET, and HEAD and OPTIONS
    are added for it by the framework. *)
Definition full_dispatch_request : View Response :=
  fun req w =>
    match match_rule url_map (path req) with
    | None => (not_found, w)
    | Some ep =>
        match method req with
        | GET => call_view ep req w
        | HEAD => let (r, w') := call_view ep req w in (strip_body r, w')
        | OPTIONS => (automatic_options, w)
        | _ => (method_not_allowed, w)
        end
    end.

(** ** The running process *)

(** What can happen to the process after start: a request arrives, or
    code running in the process rebinds or removes an environment
    variable. *)
Inductive Event : Type :=
  | Incoming (req : Request)
  | SetEnv (key value : string)
  | UnsetEnv (key : string).

Definition step (w : World) (e : Event) : World * list Response :=
  match e with
  | Incoming req => let (r, w') := full_dispatch_request req w in (w', [r])
  | SetEnv k v => (environ_set k v w, [])
  | UnsetEnv k => (environ_unset k w, [])
  end.

Fixpoint run (w : World) (es : list Event) : World * list Response :=
  match es with
  | [] => (w, [])
  | e :: rest =>
      let (w1, out1) := step w e in
      let (w2, out2) := run w1 rest in
      (w2, out1 ++ out2)%list
  end.

(** ** Module start-up *)

(** The arguments of [app.run]. *)
Record RunCall : Type := mkRunCall {
  host : string;
  port : Z;
  debug : bool
}.

(** The last statement of the module: the server is started only when
    [__name__] is ["__main__"]. *)
Definition module_main (dunder_name : string) : option RunCall :=
  if String.eqb dunder_name "__main__"
  then Some {| host := "0.0.0.0"; port := 5000; debug := true |}
  else None.

(** ** The test suite, [test_app.py] *)


Definition json_is_num (o : option json) (n : Z) : bool :=
  match o with
  | Some (JNum n') => Z.eqb n' n
  | _ => false
  end.






(** The relation between the two fields of the data route's document:
    [count] is an integer equal to the number of items of [data]. *)
Definition count_matches_data (r : Response) : bool :=
  match payload r with
  | Some doc =>
      match json_get "data" doc, json_get "count" doc with
      | Some (JArr items), Some (JNum n) => (n =? Z.of_nat (length items))%Z
      | _, _ => false
      end
  | None => false
  end.

(** ** Sample inputs *)

Definition plain_get (p : string) : Request :=
  {| method := GET; path := p; query_string := ""; headers := []; body := "" |}.

Definition noisy_get (p : string) : Request :=
  {| method := GET; path := p; query_string := "version=9.9.9&debug=1";
     headers := [("X-App-Version", "9.9.9"); ("Accept", "text/plain")];
     body := "ignored=true" |}.

(** The greeting sent for a request handled in state [w]: what [hello]
    returns there, as a response. *)
Definition greeting_of (w : World) : Response :=
  make_response (fst (hello (plain_get "/") w)).

Definition env_v2 : World :=
  {| environ := {[ "APP_VERSION" := "2.0.0" ]}; config := ∅ |}.

Definition env_prod : World :=
  {| environ := <["ENV" := "production"]> {[ "APP_VERSION" := "3.1.4" ]};
     config := ∅ |}.

(** ** Observations on the model *)


(** The values [hello] reports, defaults applied. *)
Definition effective (w : World) : string * string :=
  (default "1.0.0" (environ w !! "APP_VERSION"),
   default "development" (environ w !! "ENV")).




(** * Properties *)

(** ** What each view computes *)

Lemma hello_eq (req : Request) (w : World) :
  hello req w =
    (RvResponse (jsonify (JObj [
       ("message", JStr "Hello from CI/CD Pipeline!");
       ("version", JStr (default "1.0.0" (environ w !! "APP_VERSION")));
       ("environment", JStr (default "development" (environ w !! "ENV")))])),
     w).
Proof. reflexivity. Qed.

Lemma health_eq (req : Request) (w : World) :
  health req w = (RvTuple (jsonify (JObj [("status", JStr "healthy")])) 200, w).
Proof. reflexivity. Qed.

Lemma get_data_eq (req : Request) (w : World) :
  get_data req w =
    (RvResponse (jsonify (JObj [
       ("data", JArr [JNum 1; JNum 2; JNum 3; JNum 4; JNum 5]);
       ("count", JNum 5)])),
     w).
Proof. reflexivity. Qed.

(** ** Routing of GET requests *)

Lemma dispatch_get (req : Request) (w : World) (p : string) (ep : Endpoint) :
  method req = GET -> path req = p -> match_rule url_map p = Some ep ->
  full_dispatch_request req w = call_view ep req w.
Proof.
  intros Hm Hp Hr. unfold full_dispatch_request.
  rewrite Hp, Hr, Hm. reflexivity.
Qed.

Lemma dispatch_root (req : Request) (w : World) :
  method req = GET -> path req = "/" ->
  full_dispatch_request req w = call_view EpHello req w.
Proof. intros Hm Hp. now apply dispatch_get with (p := "/"). Qed.

Lemma dispatch_health (req : Request) (w : World) :
  method req = GET -> path req = "/health" ->
  full_dispatch_request req w = call_view EpHealth req w.
Proof. intros Hm Hp. now apply dispatch_get with (p := "/health"). Qed.

Lemma dispatch_api_data (req : Request) (w : World) :
  method req = GET -> path req = "/api/data" ->
  full_dispatch_request req w = call_view EpGetData req w.
Proof. intros Hm Hp. now apply dispatch_get with (p := "/api/data"). Qed.

(** A path outside the three rules is answered by the framework. *)
Example dispatch_unknown_path (w : World) :
  fst (full_dispatch_request (plain_get "/health/") w) = not_found.
Proof. reflexivity. Qed.

Example dispatch_post_root (w : World) :
  fst (full_dispatch_request
         {| method := POST; path := "/"; query_string := ""; headers := []; body := "x" |} w)
  = method_not_allowed.
Proof. reflexivity. Qed.

(** ** The state is only read *)

Lemma view_state (ep : Endpoint) (req : Request) (w : World) :
  snd (view_functions ep req w) = w.
Proof. destruct ep; reflexivity. Qed.

Lemma call_view_state (ep : Endpoint) (req : Request) (w : World) :
  snd (call_view ep req w) = w.
Proof. destruct ep; reflexivity. Qed.

Lemma full_dispatch_state (req : Request) (w : World) :
  snd (full_dispatch_request req w) = w.
Proof.
  unfold full_dispatch_request.
  destruct (match_rule url_map (path req)) as [ep|]; [|reflexivity].
  destruct (method req); try reflexivity.
  - apply call_view_state.
  - pose proof (call_view_state ep req w) as H.
    destruct (call_view ep req w) as [r w']. exact H.
Qed.

(** ** Runs of the process *)

Lemma run_app (w : World) (es1 es2 : list Event) :
  run w (es1 ++ es2) =
    let (w1, out1) := run w es1 in
    let (w2, out2) := run w1 es2 in
    (w2, out1 ++ out2)%list.
Proof.
  revert w. induction es1 as [|e es1 IH]; intros w; simpl.
  - destruct (run w es2); reflexivity.
  - destruct (step w e) as [wa outa]. rewrite IH.
    destruct (run wa es1) as [wb outb].
    destruct (run wb es2) as [wc outc].
    now rewrite app_assoc.
Qed.

Lemma run_incoming (w : World) (req : Request) :
  run w [Incoming req] = (w, [fst (full_dispatch_request req w)]).
Proof.
  simpl. pose proof (full_dispatch_state req w) as H.
  destruct (full_dispatch_request req w) as [r w']. simpl in *. now subst.
Qed.

(** Requests alone never change the state of the process. *)
Lemma run_requests_state (w : World) (reqs : list Request) :
  fst (run w (map Incoming reqs)) = w.
Proof.
  revert w. induction reqs as [|req reqs IH]; intros w; [reflexivity|].
  simpl. pose proof (full_dispatch_state req w) as H.
  destruct (full_dispatch_request req w) as [r w']. simpl in H. subst w'.
  specialize (IH w). destruct (run w (map Incoming reqs)). exact IH.
Qed.

(** ** The module's own tests hold in every state *)




(** Importing the module, as the tests do, starts no server. *)
Lemma module_main_imported (name : string) :
  name <> "__main__" -> module_main name = None.
Proof.
  intros Hne. unfold module_main.
  destruct (String.eqb_spec name "__main__"); [contradiction|reflexivity].
Qed.

(** * The claims *)

(** C1. Every GET request to [/] is answered with status 200 and a JSON
    object whose keys are exactly [message], [version] and [environment];
    the value of [message] is the constant ["Hello from CI/CD Pipeline!"],
    whatever the request carries and whatever the environment holds. *)
Theorem greeting_status_keys_message (req : Request) (w : World) :
  method req = GET -> path req = "/" ->
  let r := fst (full_dispatch_request req w) in
  status_code r = 200%Z /\
  exists fields,
    payload r = Some (JObj fields) /\
    json_keys (JObj fields) = ["message"; "version"; "environment"] /\
    json_get "message" (JObj fields) = Some (JStr "Hello from CI/CD Pipeline!").
Proof.
  intros Hm Hp. rewrite (dispatch_root req w Hm Hp).
  unfold call_view, bind, view_functions. rewrite hello_eq. simpl.
  split; [reflexivity|]. eexists. split; [reflexivity|]. split; reflexivity.
Qed.

Lemma greeting_status_keys_message_witness :
  let r := fst (full_dispatch_request (noisy_get "/") env_prod) in
  status_code r = 200%Z /\
  exists fields,
    payload r = Some (JObj fields) /\
    json_keys (JObj fields) = ["message"; "version"; "environment"] /\
    json_get "message" (JObj fields) = Some (JStr "Hello from CI/CD Pipeline!").
Proof.
  apply (greeting_status_keys_message (noisy_get "/") env_prod); reflexivity.
Defined.

(** C2. In every environment the [version] field of the greeting is the
    value of [APP_VERSION] when that variable is set and ["1.0.0"]
    otherwise, and the [environment] field is the value of [ENV] when set
    and ["development"] otherwise. *)
Theorem greeting_version_environment (req : Request) (w : World) :
  method req = GET -> path req = "/" ->
  exists doc,
    payload (fst (full_dispatch_request req w)) = Some doc /\
    (forall v, environ w !! "APP_VERSION" = Some v ->
               json_get "version" doc = Some (JStr v)) /\
    (environ w !! "APP_VERSION" = None ->
               json_get "version" doc = Some (JStr "1.0.0")) /\
    (forall e, environ w !! "ENV" = Some e ->
               json_get "environment" doc = Some (JStr e)) /\
    (environ w !! "ENV" = None ->
               json_get "environment" doc = Some (JStr "development")).
Proof.
  intros Hm Hp. rewrite (dispatch_root req w Hm Hp).
  unfold call_view, bind, view_functions. rewrite hello_eq. simpl.
  eexists. split; [reflexivity|]. simpl.
  repeat split; intros; match goal with H : _ !! _ = _ |- _ => now rewrite H end.
Qed.

(** With [APP_VERSION=2.0.0] and [ENV] unset the greeting reports version
    ["2.0.0"] and environment ["development"]. *)
Lemma greeting_version_environment_witness :
  exists doc,
    payload (fst (full_dispatch_request (plain_get "/") env_v2)) = Some doc /\
    json_get "version" doc = Some (JStr "2.0.0") /\
    json_get "environment" doc = Some (JStr "development").
Proof.
  destruct (greeting_version_environment (plain_get "/") env_v2 eq_refl eq_refl)
    as (doc & Hdoc & Hv & _ & _ & He).
  exists doc. split; [exact Hdoc|]. split.
  - apply Hv. unfold env_v2; simpl. apply lookup_singleton_eq.
  - apply He. unfold env_v2; simpl. now apply lookup_singleton_ne.
Defined.

(** C3. Every GET request to [/health] is answered with status 200 and
    the JSON object [{"status": "healthy"}], with no condition on the
    request or on the environment. *)
Theorem health_status_body (req : Request) (w : World) :
  method req = GET -> path req = "/health" ->
  let r := fst (full_dispatch_request req w) in
  status_code r = 200%Z /\
  payload r = Some (JObj [("status", JStr "healthy")]).
Proof.
  intros Hm Hp. rewrite (dispatch_health req w Hm Hp). split; reflexivity.
Qed.

Lemma health_status_body_witness :
  let r := fst (full_dispatch_request (noisy_get "/health") env_prod) in
  status_code r = 200%Z /\
  payload r = Some (JObj [("status", JStr "healthy")]).
Proof.
  apply (health_status_body (noisy_get "/health") env_prod); reflexivity.
Defined.

(** C4. Every GET request to [/api/data] is answered with status 200 and
    a JSON object whose [data] field is the list [[1,2,3,4,5]], of five
    elements, and whose [count] field is 5. *)
Theorem data_status_body (req : Request) (w : World) :
  method req = GET -> path req = "/api/data" ->
  let r := fst (full_dispatch_request req w) in
  status_code r = 200%Z /\
  exists fields items,
    payload r = Some (JObj fields) /\
    json_get "data" (JObj fields) = Some (JArr items) /\
    items = [JNum 1; JNum 2; JNum 3; JNum 4; JNum 5] /\
    length items = 5 /\
    json_get "count" (JObj fields) = Some (JNum 5).
Proof.
  intros Hm Hp. rewrite (dispatch_api_data req w Hm Hp).
  split; [reflexivity|]. do 2 eexists.
  split; [reflexivity|]. split; [reflexivity|]. repeat split.
Qed.

Lemma data_status_body_witness :
  let r := fst (full_dispatch_request (noisy_get "/api/data") env_v2) in
  status_code r = 200%Z /\
  exists fields items,
    payload r = Some (JObj fields) /\
    json_get "data" (JObj fields) = Some (JArr items) /\
    items = [JNum 1; JNum 2; JNum 3; JNum 4; JNum 5] /\
    length items = 5 /\
    json_get "count" (JObj fields) = Some (JNum 5).
Proof.
  apply (data_status_body (noisy_get "/api/data") env_v2); reflexivity.
Defined.

(** C5. In every response produced by the data view the [count] field
    equals the length of the list stored in the [data] field. *)
Theorem data_count_is_length (req : Request) (w : World) :
  let r := make_response (fst (get_data req w)) in
  count_matches_data r = true /\
  exists doc items n,
    payload r = Some doc /\
    json_get "data" doc = Some (JArr items) /\
    json_get "count" doc = Some (JNum n) /\
    n = Z.of_nat (length items).
Proof.
  rewrite get_data_eq. simpl. split; [reflexivity|].
  do 3 eexists. split; [reflexivity|]. split; [reflexivity|].
  split; reflexivity.
Qed.

(** C6. Each of the three views is deterministic and ignores the request:
    two calls of the same view under the same process environment give
    the same response, status and body, whatever the two requests are
    (and whatever else differs in the state of the application). *)
Theorem views_ignore_request (ep : Endpoint) (req1 req2 : Request) (w1 w2 : World) :
  environ w1 = environ w2 ->
  fst (call_view ep req1 w1) = fst (call_view ep req2 w2).
Proof.
  intros Henv. unfold call_view, bind, ret.
  destruct ep; unfold view_functions.
  - rewrite !hello_eq, Henv. reflexivity.
  - reflexivity.
  - reflexivity.
Qed.

Lemma views_ignore_request_witness :
  fst (call_view EpHello (plain_get "/") env_prod) =
  fst (call_view EpHello (noisy_get "/") (config_set "TESTING" (JBool true) env_prod)).
Proof.
  apply (views_ignore_request EpHello (plain_get "/") (noisy_get "/") env_prod
           (config_set "TESTING" (JBool true) env_prod)).
  reflexivity.
Defined.

(** C7. No view has a side effect: after a call of [hello], [health] or
    [get_data] the environment variables and the application's
    configuration are what they were before it. *)
Theorem views_leave_state_unchanged (req : Request) (w : World) :
  snd (hello req w) = w /\
  snd (health req w) = w /\
  snd (get_data req w) = w /\
  snd (full_dispatch_request req w) = w.
Proof.
  split; [exact (view_state EpHello req w)|].
  split; [exact (view_state EpHealth req w)|].
  split; [exact (view_state EpGetData req w)|].
  apply full_dispatch_state.
Qed.

(** C8. Run as the main program, the module starts the development
    server on host [0.0.0.0], that is on all interfaces, and port 5000. *)
Theorem main_binds_all_interfaces_port_5000 :
  exists rc,
    module_main "__main__" = Some rc /\
    host rc = "0.0.0.0" /\
    port rc = 5000%Z.
Proof. eexists. split; [reflexivity|]. split; reflexivity. Qed.

(** The greeting in explicit form. *)
Lemma greeting_of_eq (w : World) :
  greeting_of w =
    jsonify (JObj [
      ("message", JStr "Hello from CI/CD Pipeline!");
      ("version", JStr (default "1.0.0" (environ w !! "APP_VERSION")));
      ("environment", JStr (default "development" (environ w !! "ENV")))]).
Proof. reflexivity. Qed.

Lemma run_then_root (w : World) (pre : list Event) (req : Request) :
  method req = GET -> path req = "/" ->
  run w (pre ++ [Incoming req]) =
    (fst (run w pre), (snd (run w pre) ++ [greeting_of (fst (run w pre))])%list).
Proof.
  intros Hm Hp. rewrite run_app.
  destruct (run w pre) as [w1 out1]. rewrite run_incoming.
  rewrite (dispatch_root req w1 Hm Hp). reflexivity.
Qed.

(** C9. The greeting reads [APP_VERSION] and [ENV] when the request is
    handled, not at start-up: after any history of requests and changes
    of the environment, the answer to a GET on [/] carries the values the
    two variables have at that moment, so a change of either of them
    shows in the next answer. *)
Theorem greeting_reads_environ_per_request
    (w : World) (pre : list Event) (req : Request) :
  method req = GET -> path req = "/" ->
  snd (run w (pre ++ [Incoming req]))
    = (snd (run w pre) ++ [greeting_of (fst (run w pre))])%list /\
  (forall v,
     last (snd (run w (pre ++ [SetEnv "APP_VERSION" v; Incoming req])))
       = Some (jsonify (JObj [
           ("message", JStr "Hello from CI/CD Pipeline!");
           ("version", JStr v);
           ("environment",
            JStr (default "development" (environ (fst (run w pre)) !! "ENV")))]))) /\
  (forall e,
     last (snd (run w (pre ++ [SetEnv "ENV" e; Incoming req])))
       = Some (jsonify (JObj [
           ("message", JStr "Hello from CI/CD Pipeline!");
           ("version",
            JStr (default "1.0.0" (environ (fst (run w pre)) !! "APP_VERSION")));
           ("environment", JStr e)]))).
Proof.
  intros Hm Hp. split; [now rewrite run_then_root|].
  split; intros x.
  - change (pre ++ [SetEnv "APP_VERSION" x; Incoming req])%list
      with (pre ++ ([SetEnv "APP_VERSION" x] ++ [Incoming req]))%list.
    rewrite app_assoc, run_then_root by assumption. simpl.
    rewrite last_snoc, run_app. destruct (run w pre) as [w1 out1]. simpl.
    rewrite greeting_of_eq. unfold environ_set; simpl.
    rewrite lookup_insert_eq, lookup_insert_ne by discriminate. reflexivity.
  - change (pre ++ [SetEnv "ENV" x; Incoming req])%list
      with (pre ++ ([SetEnv "ENV" x] ++ [Incoming req]))%list.
    rewrite app_assoc, run_then_root by assumption. simpl.
    rewrite last_snoc, run_app. destruct (run w pre) as [w1 out1]. simpl.
    rewrite greeting_of_eq. unfold environ_set; simpl.
    rewrite lookup_insert_eq, lookup_insert_ne by discriminate. reflexivity.
Qed.

(** Started with [APP_VERSION=2.0.0], the process answers ["2.0.0"]; once
    the variable is rebound to ["2.1.0"] the next answer says so. *)
Lemma greeting_reads_environ_per_request_witness :
  snd (run env_v2 [Incoming (plain_get "/");
                   SetEnv "APP_VERSION" "2.1.0";
                   Incoming (noisy_get "/")])
  = [jsonify (JObj [("message", JStr "Hello from CI/CD Pipeline!");
                    ("version", JStr "2.0.0");
                    ("environment", JStr "development")]);
     jsonify (JObj [("message", JStr "Hello from CI/CD Pipeline!");
                    ("version", JStr "2.1.0");
                    ("environment", JStr "development")])].
Proof.
  destruct (greeting_reads_environ_per_request env_v2
              [Incoming (plain_get "/"); SetEnv "APP_VERSION" "2.1.0"]
              (noisy_get "/") eq_refl eq_refl) as [H _].
  etransitivity; [exact H|]. vm_compute. reflexivity.
Defined.

(** C10. Run as the main program, the module starts the development
    server with debug mode switched on. *)
Theorem main_enables_debug :
  exists rc, module_main "__main__" = Some rc /\ debug rc = true.
Proof. eexists. split; reflexivity. Qed.

(** * Further properties of the module and of its tests *)

(** ** Only two variables are observed *)






(** X3. The server is started exactly when the module runs under the
    name [__main__]: under any other name, as when the tests import it,
    [app.run] is not called. *)
Theorem server_started_iff_main (name : string) :
  module_main name <> None <-> name = "__main__".
Proof.
  unfold module_main. destruct (String.eqb_spec name "__main__") as [Heq | Hne].
  - split; [intros _; exact Heq | intros _; discriminate].
  - split; [intros H; now contradiction H | intros Heq; contradiction].
Qed.





(** X6. Two greetings are equal exactly when the two environments give the
    same reported values, defaults applied: the greeting depends on
    nothing else, and it does reveal both values. *)
Theorem greeting_equal_iff_effective (req1 req2 : Request) (w1 w2 : World) :
  fst (call_view EpHello req1 w1) = fst (call_view EpHello req2 w2)
  <-> effective w1 = effective w2.
Proof.
  unfold call_view, bind, ret, view_functions, effective.
  rewrite !hello_eq. simpl. split.
  - intros [= Hv He]. now rewrite Hv, He.
  - intros [= Hv He]. now rewrite Hv, He.
Qed.

(** X7. Removing a variable brings its default back: after any history,
    once [APP_VERSION] is deleted from the environment the next greeting
    reports ["1.0.0"], and once [ENV] is deleted it reports
    ["development"]; deleting [APP_VERSION] and binding it to ["1.0.0"]
    cannot be told apart from the answers. *)
Theorem unset_restores_default (w : World) (pre : list Event) (req : Request) :
  method req = GET -> path req = "/" ->
  last (snd (run w (pre ++ [UnsetEnv "APP_VERSION"; Incoming req])))
    = Some (jsonify (JObj [
        ("message", JStr "Hello from CI/CD Pipeline!");
        ("version", JStr "1.0.0");
        ("environment",
         JStr (default "development" (environ (fst (run w pre)) !! "ENV")))])) /\
  last (snd (run w (pre ++ [UnsetEnv "ENV"; Incoming req])))
    = Some (jsonify (JObj [
        ("message", JStr "Hello from CI/CD Pipeline!");
        ("version",
         JStr (default "1.0.0" (environ (fst (run w pre)) !! "APP_VERSION")));
        ("environment", JStr "development")])) /\
  snd (run w (pre ++ [UnsetEnv "APP_VERSION"; Incoming req]))
    = snd (run w (pre ++ [SetEnv "APP_VERSION" "1.0.0"; Incoming req])).
Proof.
  intros Hm Hp.
  assert (Hsplit : forall e, (pre ++ [e; Incoming req])%list
                             = ((pre ++ [e]) ++ [Incoming req])%list)
    by (intros e; now rewrite <- app_assoc).
  split; [|split].
  - rewrite Hsplit, run_then_root by assumption. simpl.
    rewrite last_snoc, run_app. destruct (run w pre) as [w1 out1]. simpl.
    rewrite greeting_of_eq. unfold environ_unset; simpl.
    rewrite lookup_delete_eq, lookup_delete_ne by discriminate. reflexivity.
  - rewrite Hsplit, run_then_root by assumption. simpl.
    rewrite last_snoc, run_app. destruct (run w pre) as [w1 out1]. simpl.
    rewrite greeting_of_eq. unfold environ_unset; simpl.
    rewrite lookup_delete_eq, lookup_delete_ne by discriminate. reflexivity.
  - rewrite !Hsplit, !run_then_root by assumption. simpl.
    rewrite !run_app. destruct (run w pre) as [w1 out1]. simpl.
    rewrite !greeting_of_eq. unfold environ_unset, environ_set; simpl.
    rewrite lookup_delete_eq, lookup_insert_eq.
    rewrite lookup_delete_ne, lookup_insert_ne by discriminate. reflexivity.
Qed.

Lemma unset_restores_default_witness :
  last (snd (run env_prod [Incoming (plain_get "/"); UnsetEnv "APP_VERSION";
                           Incoming (noisy_get "/")]))
  = Some (jsonify (JObj [("message", JStr "Hello from CI/CD Pipeline!");
                         ("version", JStr "1.0.0");
                         ("environment", JStr "production")])).
Proof.
  destruct (unset_restores_default env_prod [Incoming (plain_get "/")]
              (noisy_get "/") eq_refl eq_refl) as [H _].
  etransitivity; [exact H|]. vm_compute. reflexivity.
Defined.

(** X8. The service keeps nothing between requests: when only requests
    arrive, the state of the process stays what it was and each request
    gets the answer it would get as the first one, whatever was asked
    before it. *)
Theorem requests_are_independent (w : World) (reqs : list Request) :
  run w (map Incoming reqs)
  = (w, map (fun req => fst (full_dispatch_request req w)) reqs).
Proof.
  induction reqs as [|req reqs IH]; [reflexivity|].
  change (map Incoming (req :: reqs))
    with ([Incoming req] ++ map Incoming reqs)%list.
  rewrite run_app, run_incoming, IH. reflexivity.
Qed.


